(** * JSONResponseValidator (alphawave): a shallow embedding and its properties

    The development follows
    [packages/alphawave/src/JSONResponseValidator.ts].  JavaScript values,
    exceptions and the two string primitives the file relies on ([split] and
    [trim]) are written out; the collaborators that live outside that file
    (the rendering of numbers, the [Response] helpers, the [jsonschema]
    validator) are the fields of the classes [Numbers] and
    [Collaborators]. *)

From Stdlib Require Import String Ascii List ZArith Bool Lia DecimalString.
Import ListNotations.

Local Open Scope list_scope.
Local Open Scope string_scope.

#[local] Set Warnings "-register-all".

(** ** Exceptions and completions *)

(** The only exception the file can raise by itself is a [TypeError], when a
    method is read from [undefined] or [null]. The string is the name of the
    property that was being read. *)
Inductive Exception : Type :=
| TypeError (reading : string).

(** Outcome of evaluating a piece of JavaScript: a result, or a raised
    exception. *)
Inductive Completion (A : Type) : Type :=
| Return (a : A)
| Throw (e : Exception).

Arguments Return {A} a.
Arguments Throw {A} e.

Definition bind {A B : Type} (c : Completion A) (k : A -> Completion B)
  : Completion B :=
  match c with
  | Return a => k a
  | Throw e => Throw e
  end.

Notation "x <- c ;; k" := (bind c (fun x => k))
  (at level 61, c at next level, right associativity).

(** [Array.prototype.map] with a callback that may raise: elements are
    visited from left to right and the first exception ends the call. *)
Fixpoint mapM {A B : Type} (f : A -> Completion B) (l : list A)
  : Completion (list B) :=
  match l with
  | [] => Return []
  | a :: l' => b <- f a ;; bs <- mapM f l' ;; Return (b :: bs)
  end.

(** ** Strings

    A [string] stands for a JavaScript string whose code units are all below
    256. *)

(** [Array.prototype.join] on an array of strings. *)
Definition join (sep : string) (l : list string) : string :=
  String.concat sep l.

(** [String.prototype.split] with a separator of one character. The result
    is never empty: a text without the separator is returned whole. *)
Fixpoint split (sep : ascii) (s : string) : list string :=
  match s with
  | EmptyString => [EmptyString]
  | String c r =>
      if Ascii.eqb c sep then EmptyString :: split sep r
      else match split sep r with
           | [] => [String c EmptyString]
           | h :: t => String c h :: t
           end
  end.

(** White space and line terminators of ECMAScript among the code units
    below 256: TAB, LF, VT, FF, CR, SP and NBSP. *)
Definition isWhiteSpace (c : ascii) : bool :=
  let n := nat_of_ascii c in
  (Nat.leb 9 n && Nat.leb n 13) || Nat.eqb n 32 || Nat.eqb n 160.

Fixpoint trimStart (s : string) : string :=
  match s with
  | EmptyString => EmptyString
  | String c r => if isWhiteSpace c then trimStart r else s
  end.

Fixpoint trimEnd (s : string) : string :=
  match s with
  | EmptyString => EmptyString
  | String c r =>
      match trimEnd r with
      | EmptyString => if isWhiteSpace c then EmptyString else String c EmptyString
      | r' => String c r'
      end
  end.

(** [String.prototype.trim]. *)
Definition trim (s : string) : string := trimEnd (trimStart s).

(** The part of [s] after its first occurrence of [sep], when there is
    one. *)
Fixpoint afterFirst (sep : ascii) (s : string) : option string :=
  match s with
  | EmptyString => None
  | String c r => if Ascii.eqb c sep then Some r else afterFirst sep r
  end.

(** The part of [s] before its first occurrence of [sep]; all of [s] when
    there is none. *)
Fixpoint beforeFirst (sep : ascii) (s : string) : string :=
  match s with
  | EmptyString => EmptyString
  | String c r => if Ascii.eqb c sep then EmptyString else String c (beforeFirst sep r)
  end.

(** Number of occurrences of a character. *)
Fixpoint occurrences (sep : ascii) (s : string) : nat :=
  match s with
  | EmptyString => 0
  | String c r => (if Ascii.eqb c sep then 1 else 0) + occurrences sep r
  end.

(** The double quote, the backslash and the line feed, as one-character
    strings. *)
Definition dq : string := String (ascii_of_nat 34) EmptyString.
Definition bs : string := String (ascii_of_nat 92) EmptyString.
Definition LF : string := String (ascii_of_nat 10) EmptyString.

Definition hexDigit (n : nat) : ascii :=
  ascii_of_nat (if Nat.ltb n 10 then 48 + n else 87 + n).

(** The escapes of [QuoteJSONString] of ECMAScript, on code units below
    256. *)
Fixpoint escapeJSON (s : string) : string :=
  match s with
  | EmptyString => EmptyString
  | String c r =>
      let n := nat_of_ascii c in
      (if Nat.eqb n 34 then bs ++ dq
       else if Nat.eqb n 92 then bs ++ bs
       else if Nat.eqb n 8 then bs ++ "b"
       else if Nat.eqb n 12 then bs ++ "f"
       else if Nat.eqb n 10 then bs ++ "n"
       else if Nat.eqb n 13 then bs ++ "r"
       else if Nat.eqb n 9 then bs ++ "t"
       else if Nat.ltb n 32 then
         bs ++ "u00" ++
         String (hexDigit (n / 16)) (String (hexDigit (n mod 16)) EmptyString)
       else String c EmptyString) ++ escapeJSON r
  end.

Definition quoteJSON (s : string) : string := dq ++ escapeJSON s ++ dq.

(** ** JavaScript values *)

(** JavaScript numbers, with [Number.prototype.toString] in radix 10 and the
    finiteness test that [JSON.stringify] applies. *)
Class Numbers : Type := {
  number : Type;
  Number_toString : number -> string;
  Number_isFinite : number -> bool
}.

Section Values.

Context {N : Numbers}.

(** An object is the list of its own enumerable properties in enumeration
    order. *)
Inductive jsval : Type :=
| VUndefined
| VNull
| VBool (b : bool)
| VNum (n : number)
| VStr (s : string)
| VArr (elements : list jsval)
| VObj (properties : list (string * jsval)).

Definition typeof (v : jsval) : string :=
  match v with
  | VUndefined => "undefined"
  | VNull => "object"
  | VBool _ => "boolean"
  | VNum _ => "number"
  | VStr _ => "string"
  | VArr _ => "object"
  | VObj _ => "object"
  end.

Definition Array_isArray (v : jsval) : bool :=
  match v with
  | VArr _ => true
  | _ => false
  end.

(** The elements of an array value. *)
Definition elementsOf (v : jsval) : list jsval :=
  match v with
  | VArr l => l
  | _ => []
  end.

(** The abstract operation [ToString]. An array is converted by joining its
    elements with commas, [undefined] and [null] elements giving the empty
    string; a plain object gives the text of [Object.prototype.toString]. *)
Fixpoint ToString (v : jsval) : string :=
  match v with
  | VUndefined => "undefined"
  | VNull => "null"
  | VBool b => if b then "true" else "false"
  | VNum n => Number_toString n
  | VStr s => s
  | VArr l =>
      join ","
        (map (fun e => match e with
                       | VUndefined | VNull => EmptyString
                       | _ => ToString e
                       end) l)
  | VObj _ => "[object Object]"
  end.

(** The string an array element contributes to [Array.prototype.join]. *)
Definition elementString (e : jsval) : string :=
  match e with
  | VUndefined | VNull => EmptyString
  | _ => ToString e
  end.

(** [Array.prototype.join]. *)
Definition Array_join (sep : string) (l : list jsval) : string :=
  join sep (map elementString l).

(** The call [v.toString()]: reading the method from [undefined] or [null]
    raises. *)
Definition call_toString (v : jsval) : Completion string :=
  match v with
  | VUndefined | VNull => Throw (TypeError "toString")
  | _ => Return (ToString v)
  end.

(** [JSON.stringify] with one argument: [None] is the result [undefined].
    Inside an array [undefined] is written [null]; inside an object a
    property whose value is [undefined] is left out. *)
Fixpoint JSON_stringify (v : jsval) : option string :=
  match v with
  | VUndefined => None
  | VNull => Some "null"
  | VBool b => Some (if b then "true" else "false")
  | VNum n => Some (if Number_isFinite n then Number_toString n else "null")
  | VStr s => Some (quoteJSON s)
  | VArr l =>
      Some ("[" ++
            join "," (map (fun e => match JSON_stringify e with
                                    | Some t => t
                                    | None => "null"
                                    end) l) ++ "]")
  | VObj ps =>
      Some ("{" ++
            join ","
              (flat_map (fun kv => match JSON_stringify (snd kv) with
                                   | Some t => [quoteJSON (fst kv) ++ ":" ++ t]
                                   | None => []
                                   end) ps) ++ "}")
  end.

(** What a template literal prints for a variable that holds the result of
    [JSON.stringify]. *)
Definition templateOf (r : option string) : string :=
  match r with
  | Some t => t
  | None => "undefined"
  end.

(** ** The validator library's results *)

(** [ValidationError] of [jsonschema], with the fields the file reads. The
    library declares [argument] as [any]. *)
Record ValidationError : Type := mkValidationError {
  property : string;
  message : string;
  name : string;
  argument : jsval
}.

(** [ValidatorResult] of [jsonschema], with the fields the file reads. *)
Record ValidatorResult : Type := mkValidatorResult {
  result_valid : bool;
  result_errors : list ValidationError
}.

(** ** getErrorFix *)

(** Lines 93-101: the argument as a string. *)
Definition argumentString (a : jsval) : Completion string :=
  if Array_isArray a then
    Return (Array_join "," (elementsOf a))
  else if String.eqb (typeof a) "object" then
    Return (templateOf (JSON_stringify a))
  else
    call_toString a.

(** Lines 92-132. *)
Definition getErrorFix (error : ValidationError) : Completion string :=
  arg <- argumentString (argument error) ;;
  let p := property error in
  let n := name error in
  if String.eqb n "type" then
    Return ("convert " ++ dq ++ p ++ dq ++ " to a " ++ arg)
  else if String.eqb n "anyOf" then
    Return ("convert " ++ dq ++ p ++ dq ++ " to one of the allowed types: " ++ arg)
  else if String.eqb n "additionalProperties" then
    Return ("remove the " ++ dq ++ arg ++ dq ++ " property from " ++ dq ++ p ++ dq)
  else if String.eqb n "required" then
    Return ("add the " ++ dq ++ arg ++ dq ++ " property to " ++ dq ++ p ++ dq)
  else if String.eqb n "format" then
    Return ("change the " ++ dq ++ p ++ dq ++ " property to be a " ++ arg)
  else if String.eqb n "uniqueItems" then
    Return ("remove all duplicate items from " ++ dq ++ p ++ dq)
  else if String.eqb n "enum" then
    match nth_error (split ":" (message error)) 1 with
    | Some part =>
        Return ("change the " ++ dq ++ p ++ dq ++
                " property to be one of these values: " ++ trim part)
    | None => Throw (TypeError "trim")
    end
  else if String.eqb n "const" then
    Return ("change the " ++ dq ++ p ++ dq ++ " property to be " ++ arg)
  else
    Return (dq ++ p ++ dq ++ " " ++ message error ++ ". Fix that").

(** The names the [switch] of lines 103-131 has a case for. *)
Definition switchCases : list string :=
  ["type"; "anyOf"; "additionalProperties"; "required"; "format";
   "uniqueItems"; "enum"; "const"].

End Values.

Arguments jsval N : clear implicits.
Arguments ValidationError N : clear implicits.
Arguments ValidatorResult N : clear implicits.

(** ** What validateResponse calls *)

(** The schema type and [new Validator().validate(instance, schema)] of
    [jsonschema]; [Response.parseAllObjects] and
    [Response.removeEmptyValuesFromObject] of [./Response]; the types of
    the three arguments that [validateResponse] does not read.

    The three functions stand for calls that return. [validateResponse]
    calls them outside any [try], so an exception of theirs (a
    [SchemaError] of the validator for instance) would leave
    [validateResponse] as it is; such a call has no counterpart here. *)
Class Collaborators (N : Numbers) : Type := {
  Schema : Type;
  validate : jsval N -> Schema -> ValidatorResult N;
  parseAllObjects : string -> list (jsval N);
  removeEmptyValuesFromObject : jsval N -> jsval N;
  PromptMemory : Type;
  PromptFunctions : Type;
  Tokenizer : Type
}.

Section Validator.

Context {N : Numbers} {C : Collaborators N}.

(** ** Messages, responses and validations *)

(** The [content] of a structured message: absent or [undefined], [null],
    or a text. *)
Inductive MessageContent : Type :=
| ContentUndefined
| ContentNull
| ContentString (s : string).

Record Message : Type := mkMessage {
  role : string;
  content : MessageContent
}.

(** [Message | string]. *)
Inductive MessageOrString : Type :=
| IsString (s : string)
| IsMessage (m : Message).

Record PromptResponse : Type := mkPromptResponse {
  status : string;
  response_message : MessageOrString
}.

(** The object literals that [validateResponse] returns; a field that a
    literal does not write is [None]. *)
Record Validation : Type := mkValidation {
  type : string;
  valid : bool;
  value : option (jsval N);
  feedback : option string
}.

(** The two shapes of [Validation] the file builds. *)
Definition Valid (v : jsval N) : Validation :=
  {| type := "Validation"; valid := true; value := Some v; feedback := None |}.

Definition Invalid (f : string) : Validation :=
  {| type := "Validation"; valid := false; value := None; feedback := Some f |}.

Inductive Promise (A : Type) : Type :=
| Promise_resolve (a : A).

Arguments Promise_resolve {A} a.

(** ** The class *)

Record JSONResponseValidator : Type := mkJSONResponseValidator {
  errorFeedback : string;
  instanceName : option string;
  missingJsonFeedback : string;
  schema : option Schema
}.

(** Lines 18-22. The fourth parameter is not stored. *)
Definition new_JSONResponseValidator
    (schema : option Schema) (missingJsonFeedback errorFeedback : option string)
    (instanceName : option string) : JSONResponseValidator :=
  {| schema := schema;
     missingJsonFeedback :=
       match missingJsonFeedback with
       | Some f => f
       | None => "No valid JSON objects were found in the response. Return a valid JSON object."
       end;
     errorFeedback :=
       match errorFeedback with
       | Some f => f
       | None => "The JSON returned had errors. Apply these fixes:"
       end;
     instanceName := None |}.

(** Line 40. *)
Definition textOf (message : MessageOrString) : string :=
  match message with
  | IsString s => s
  | IsMessage m =>
      match content m with
      | ContentString s => s
      | ContentUndefined | ContentNull => EmptyString
      end
  end.

(** Line 45: [typeof message === 'object' && message.content === null]. *)
Definition hasNullContent (message : MessageOrString) : bool :=
  match message with
  | IsString _ => false
  | IsMessage m =>
      match content m with
      | ContentNull => true
      | _ => false
      end
  end.

(** How the loop of lines 63-75 is left: by the [return] of line 67, or at
    its end with the local [errors]. *)
Inductive LoopExit : Type :=
| LoopReturn (obj : jsval N)
| LoopEnd (errors : option (list (ValidationError N))).

(** Lines 63-75, with [n = i + 1]. The last argument and the second
    component of the result list the instances handed to
    [validator.validate], in the order of the calls. *)
Fixpoint validationLoop (s : Schema) (parsed : list (jsval N)) (n : nat)
    (errors : option (list (ValidationError N))) (calls : list (jsval N))
  : LoopExit * list (jsval N) :=
  match n with
  | O => (LoopEnd errors, calls)
  | S i =>
      let obj := removeEmptyValuesFromObject (nth i parsed VUndefined) in
      let result := validate obj s in
      if result_valid result then (LoopReturn obj, (calls ++ [obj])%list)
      else
        validationLoop s parsed i
          (match errors with
           | None => Some (result_errors result)
           | Some _ => errors
           end)
          (calls ++ [obj])%list
  end.

(** Lines 77-81. [errors] is still [undefined] there only when the body of
    the loop never ran. *)
Definition errorValidation (this : JSONResponseValidator)
    (errors : option (list (ValidationError N)))
  : Completion (Promise Validation) :=
  match errors with
  | None => Throw (TypeError "map")
  | Some es =>
      fixes <- mapM getErrorFix es ;;
      Return (Promise_resolve (Invalid (errorFeedback this ++ LF ++ join LF fixes)))
  end.

(** Lines 38-90, together with the instances handed to the validator. *)
Definition validateResponse_calls (this : JSONResponseValidator)
    (memory : PromptMemory) (functions : PromptFunctions)
    (tokenizer : Tokenizer) (response : PromptResponse)
    (remaining_attempts : number)
  : Completion (Promise Validation) * list (jsval N) :=
  let message := response_message response in
  let text := textOf message in
  let parsed := parseAllObjects text in
  if Nat.eqb (length parsed) 0 then
    if hasNullContent message then
      (Return (Promise_resolve (Valid VNull)), [])
    else
      (Return (Promise_resolve (Invalid (missingJsonFeedback this))), [])
  else
    match schema this with
    | Some s =>
        match validationLoop s parsed (length parsed) None [] with
        | (LoopReturn obj, calls) => (Return (Promise_resolve (Valid obj)), calls)
        | (LoopEnd errors, calls) => (errorValidation this errors, calls)
        end
    | None =>
        (Return (Promise_resolve (Valid (nth (length parsed - 1) parsed VUndefined))), [])
    end.

(** Lines 38-90: what [validateResponse] returns or raises. *)
Definition validateResponse (this : JSONResponseValidator)
    (memory : PromptMemory) (functions : PromptFunctions)
    (tokenizer : Tokenizer) (response : PromptResponse)
    (remaining_attempts : number)
  : Completion (Promise Validation) :=
  fst (validateResponse_calls this memory functions tokenizer response
         remaining_attempts).

(** ** The loop, read as a scan of a list *)

(** The candidates in the order the loop examines them. *)
Fixpoint scan (s : Schema) (l : list (jsval N))
    (errors : option (list (ValidationError N))) (calls : list (jsval N))
  : LoopExit * list (jsval N) :=
  match l with
  | [] => (LoopEnd errors, calls)
  | c :: l' =>
      let obj := removeEmptyValuesFromObject c in
      let result := validate obj s in
      if result_valid result then (LoopReturn obj, (calls ++ [obj])%list)
      else
        scan s l'
          (match errors with
           | None => Some (result_errors result)
           | Some _ => errors
           end)
          (calls ++ [obj])%list
  end.

(** A candidate the schema rejects once it is cleaned. *)
Definition rejected (s : Schema) (c : jsval N) : Prop :=
  result_valid (validate (removeEmptyValuesFromObject c) s) = false.

(** The local [errors] after a run of rejected candidates. *)
Definition errorsAfter (s : Schema) (errors : option (list (ValidationError N)))
    (l : list (jsval N)) : option (list (ValidationError N)) :=
  match errors, l with
  | Some _, _ => errors
  | None, [] => None
  | None, c :: _ =>
      Some (result_errors (validate (removeEmptyValuesFromObject c) s))
  end.

(** Line 66 for a candidate: the validity flag of its cleaned form. *)
Definition accepted (s : Schema) (c : jsval N) : bool :=
  result_valid (validate (removeEmptyValuesFromObject c) s).

End Validator.

Arguments Promise_resolve {A} a.

(** ** An instance to run the validator on

    Integers for numbers, a reader of JSON objects embedded in a text, and
    a validator for a few keywords of JSON Schema that reports failures the
    way [jsonschema] does. *)

Module Sample.

(** Integers printed in decimal; all of them are finite. *)
Definition numbers : Numbers :=
  {| number := Z;
     Number_toString := fun z => NilEmpty.string_of_int (Z.to_int z);
     Number_isFinite := fun _ => true |}.

Definition json : Type := jsval numbers.

Definition num (z : Z) : json := @VNum numbers z.

Definition isChar (c : ascii) (code : nat) : bool :=
  Nat.eqb (nat_of_ascii c) code.

(** White space of the JSON grammar: space, TAB, LF, CR. *)
Fixpoint skipWs (s : string) : string :=
  match s with
  | String c r =>
      if isChar c 32 || isChar c 9 || isChar c 10 || isChar c 13
      then skipWs r else s
  | EmptyString => s
  end.

(** The character an escape letter stands for; a [u] escape is not read. *)
Definition unescape (c : ascii) : option ascii :=
  if isChar c 34 then Some c
  else if isChar c 92 then Some c
  else if isChar c 47 then Some c
  else if isChar c 98 then Some (ascii_of_nat 8)
  else if isChar c 102 then Some (ascii_of_nat 12)
  else if isChar c 110 then Some (ascii_of_nat 10)
  else if isChar c 114 then Some (ascii_of_nat 13)
  else if isChar c 116 then Some (ascii_of_nat 9)
  else None.

(** The characters of a string literal after its opening quote, and the
    text after its closing quote. *)
Fixpoint parseChars (s : string) : option (string * string) :=
  match s with
  | EmptyString => None
  | String c r =>
      if isChar c 34 then Some (EmptyString, r)
      else if isChar c 92 then
        match r with
        | String e r' =>
            match unescape e, parseChars r' with
            | Some ch, Some (t, rest) => Some (String ch t, rest)
            | _, _ => None
            end
        | EmptyString => None
        end
      else if Nat.ltb (nat_of_ascii c) 32 then None
      else
        match parseChars r with
        | Some (t, rest) => Some (String c t, rest)
        | None => None
        end
  end.

(** The decimal digits at the head of a text, most significant first. *)
Fixpoint takeDigits (s : string) : list nat * string :=
  match s with
  | String c r =>
      let n := nat_of_ascii c in
      if Nat.leb 48 n && Nat.leb n 57 then
        let (ds, rest) := takeDigits r in ((n - 48) :: ds, rest)
      else ([], s)
  | EmptyString => ([], s)
  end.

Definition digitsValue (ds : list nat) : Z :=
  fold_left (fun acc d => (10 * acc + Z.of_nat d)%Z) ds 0%Z.

(** A number literal with no leading zero, no fraction and no exponent. *)
Definition parseNat (s : string) : option (Z * string) :=
  match takeDigits s with
  | ([], _) => None
  | (d :: ds, rest) =>
      if Nat.eqb d 0 && negb (Nat.eqb (length ds) 0) then None
      else
        match rest with
        | String c _ =>
            if isChar c 46 || isChar c 101 || isChar c 69 then None
            else Some (digitsValue (d :: ds), rest)
        | EmptyString => Some (digitsValue (d :: ds), rest)
        end
  end.

Definition parseNumber (s : string) : option (Z * string) :=
  match s with
  | String c r =>
      if isChar c 45 then
        match parseNat r with
        | Some (z, rest) => Some ((- z)%Z, rest)
        | None => None
        end
      else parseNat s
  | EmptyString => None
  end.

(** [s] without the prefix [p], when it starts with it. *)
Fixpoint stripPrefix (p s : string) : option string :=
  match p, s with
  | EmptyString, _ => Some s
  | String a p', String b s' => if Ascii.eqb a b then stripPrefix p' s' else None
  | String _ _, EmptyString => None
  end.

(** Assignment to a property of an object under construction: a key that is
    there keeps its place. *)
Fixpoint setProperty (k : string) (v : json) (ps : list (string * json))
  : list (string * json) :=
  match ps with
  | [] => [(k, v)]
  | (k', v') :: ps' =>
      if String.eqb k k' then (k, v) :: ps' else (k', v') :: setProperty k v ps'
  end.

(** A JSON text at the head of [s] and what follows it. [parseMembers]
    reads the members of an object from a key to the closing brace,
    [parseElements] the elements of an array to the closing bracket. Each
    call consumes a character, so a fuel above the length of [s] is
    enough. *)
Fixpoint parseValue (fuel : nat) (s : string) : option (json * string) :=
  match fuel with
  | O => None
  | S fuel' =>
      match skipWs s with
      | EmptyString => None
      | String c r =>
          if isChar c 123 then
            match skipWs r with
            | String c' r' =>
                if isChar c' 125 then Some (VObj [], r')
                else parseMembers fuel' r []
            | EmptyString => None
            end
          else if isChar c 91 then
            match skipWs r with
            | String c' r' =>
                if isChar c' 93 then Some (VArr [], r')
                else parseElements fuel' r []
            | EmptyString => None
            end
          else if isChar c 34 then
            match parseChars r with
            | Some (t, rest) => Some (VStr t, rest)
            | None => None
            end
          else
            match stripPrefix "true" (String c r),
                  stripPrefix "false" (String c r),
                  stripPrefix "null" (String c r) with
            | Some rest, _, _ => Some (VBool true, rest)
            | _, Some rest, _ => Some (VBool false, rest)
            | _, _, Some rest => Some (VNull, rest)
            | None, None, None =>
                match parseNumber (String c r) with
                | Some (z, rest) => Some (VNum (z : @number numbers), rest)
                | None => None
                end
            end
      end
  end
with parseMembers (fuel : nat) (s : string) (acc : list (string * json))
  : option (json * string) :=
  match fuel with
  | O => None
  | S fuel' =>
      match skipWs s with
      | String c r =>
          if isChar c 34 then
            match parseChars r with
            | Some (k, rest) =>
                match skipWs rest with
                | String c1 r1 =>
                    if isChar c1 58 then
                      match parseValue fuel' r1 with
                      | Some (v, r2) =>
                          match skipWs r2 with
                          | String c3 r3 =>
                              if isChar c3 44 then
                                parseMembers fuel' r3 (setProperty k v acc)
                              else if isChar c3 125 then
                                Some (VObj (setProperty k v acc), r3)
                              else None
                          | EmptyString => None
                          end
                      | None => None
                      end
                    else None
                | EmptyString => None
                end
            | None => None
            end
          else None
      | EmptyString => None
      end
  end
with parseElements (fuel : nat) (s : string) (acc : list json)
  : option (json * string) :=
  match fuel with
  | O => None
  | S fuel' =>
      match parseValue fuel' s with
      | Some (v, r2) =>
          match skipWs r2 with
          | String c3 r3 =>
              if isChar c3 44 then parseElements fuel' r3 (acc ++ [v])%list
              else if isChar c3 93 then Some (VArr (acc ++ [v])%list, r3)
              else None
          | EmptyString => None
          end
      | None => None
      end
  end.

(** The objects read at the opening braces of a text, from left to right. A
    brace at which no object can be read is passed over; after an object
    the search goes on behind its closing brace. *)
Fixpoint extractObjects (fuel : nat) (s : string) : list json :=
  match fuel with
  | O => []
  | S fuel' =>
      match s with
      | EmptyString => []
      | String c r =>
          if isChar c 123 then
            match parseValue (S (String.length s)) s with
            | Some (VObj ps, rest) => VObj ps :: extractObjects fuel' rest
            | _ => extractObjects fuel' r
            end
          else extractObjects fuel' r
      end
  end.

(** Modelled from the spec: [Response.parseAllObjects], whose file is not
    among the sources. It extracts all syntactically-complete JSON object
    literals appearing anywhere in the text, preserving order of appearance;
    a complete object is a balanced brace-delimited span that parses as
    valid JSON. Here numbers are read when they are integers. *)
Definition parseAllObjects_spec (text : string) : list json :=
  extractObjects (String.length text) text.

Definition isEmptyContainer (v : json) : bool :=
  match v with
  | VObj [] => true
  | VArr [] => true
  | _ => false
  end.

(** Modelled from the spec: [Response.removeEmptyValuesFromObject], whose
    file is not among the sources. It strips any object-valued properties
    that are empty: empty containers and empty nested objects are removed
    before validation. *)
Fixpoint removeEmptyValuesFromObject_spec (v : json) : json :=
  match v with
  | VObj ps =>
      VObj (flat_map
              (fun kv =>
                 let v' := removeEmptyValuesFromObject_spec (snd kv) in
                 if isEmptyContainer v' then [] else [(fst kv, v')])
              ps)
  | _ => v
  end.

(** *** A validator for three keywords *)

Fixpoint getProperty (k : string) (ps : list (string * json)) : option json :=
  match ps with
  | [] => None
  | (k', v) :: ps' => if String.eqb k k' then Some v else getProperty k ps'
  end.

(** Equality of JSON values; the properties of two equal objects come in the
    same order. *)
Fixpoint json_eqb (a b : json) : bool :=
  match a, b with
  | VUndefined, VUndefined => true
  | VNull, VNull => true
  | VBool x, VBool y => Bool.eqb x y
  | VNum x, VNum y => Z.eqb x y
  | VStr x, VStr y => String.eqb x y
  | VArr l, VArr m =>
      (fix all2 (l m : list json) : bool :=
         match l, m with
         | [], [] => true
         | x :: l', y :: m' => json_eqb x y && all2 l' m'
         | _, _ => false
         end) l m
  | VObj p, VObj q =>
      (fix all2 (p q : list (string * json)) : bool :=
         match p, q with
         | [], [] => true
         | (k, x) :: p', (k', y) :: q' =>
             String.eqb k k' && json_eqb x y && all2 p' q'
         | _, _ => false
         end) p q
  | _, _ => false
  end.

Fixpoint distinct (l : list json) : bool :=
  match l with
  | [] => true
  | x :: r => negb (existsb (json_eqb x) r) && distinct r
  end.

(** The keywords a property's schema may carry. *)
Inductive Keyword : Type :=
| KType (t : string)
| KEnum (allowed : list json)
| KUniqueItems.

(** A schema for an object: the schemas of its properties and the names of
    the required ones. *)
Record ObjectSchema : Type := mkObjectSchema {
  schema_properties : list (string * list Keyword);
  schema_required : list string
}.

Definition hasType (t : string) (v : json) : bool :=
  match v with
  | VUndefined => false
  | VNull => String.eqb t "null"
  | VBool _ => String.eqb t "boolean"
  | VNum _ => String.eqb t "number" || String.eqb t "integer"
  | VStr _ => String.eqb t "string"
  | VArr _ => String.eqb t "array"
  | VObj _ => String.eqb t "object"
  end.

(** The error descriptors [jsonschema] adds for a keyword that fails. The
    one for [uniqueItems] is added without an argument. *)
Definition keywordErrors (path : string) (v : json) (k : Keyword)
  : list (ValidationError numbers) :=
  match k with
  | KType t =>
      if hasType t v then []
      else [{| property := path;
               message := "is not of a type(s) " ++ t;
               name := "type";
               argument := VArr [VStr t] |}]
  | KEnum allowed =>
      if existsb (json_eqb v) allowed then []
      else [{| property := path;
               message := "is not one of enum values: " ++
                          join "," (map ToString allowed);
               name := "enum";
               argument := VArr allowed |}]
  | KUniqueItems =>
      match v with
      | VArr l =>
          if distinct l then []
          else [{| property := path;
                   message := "contains duplicate item";
                   name := "uniqueItems";
                   argument := VUndefined |}]
      | _ => []
      end
  end.

Definition requiredError (k : string) : ValidationError numbers :=
  {| property := "instance";
     message := "requires property " ++ dq ++ k ++ dq;
     name := "required";
     argument := VStr k |}.

(** The errors of an instance: those of the properties it has, in the order
    of the schema, then the required properties it lacks. *)
Definition schemaErrors (instance : json) (s : ObjectSchema)
  : list (ValidationError numbers) :=
  match instance with
  | VObj ps =>
      (flat_map
         (fun entry =>
            match getProperty (fst entry) ps with
            | Some v => flat_map (keywordErrors ("instance." ++ fst entry) v) (snd entry)
            | None => []
            end)
         (schema_properties s)
       ++
       flat_map
         (fun k => match getProperty k ps with
                   | Some _ => []
                   | None => [requiredError k]
                   end)
         (schema_required s))%list
  | _ => []
  end.

(** The result is valid when it has no error. *)
Definition validate_sample (instance : json) (s : ObjectSchema)
  : ValidatorResult numbers :=
  let errors := schemaErrors instance s in
  {| result_valid := Nat.eqb (length errors) 0; result_errors := errors |}.

Definition collaborators : Collaborators numbers :=
  {| Schema := ObjectSchema;
     validate := validate_sample;
     parseAllObjects := parseAllObjects_spec;
     removeEmptyValuesFromObject := removeEmptyValuesFromObject_spec;
     PromptMemory := unit;
     PromptFunctions := unit;
     Tokenizer := unit |}.

(** *** Texts and schemas *)

(** A property of an object literal, [key] quoted, and an object literal
    around the given properties. *)
Definition member (key text : string) : string :=
  dq ++ key ++ dq ++ ":" ++ text.

Definition object (members : list string) : string :=
  "{" ++ join "," members ++ "}".

Definition quoted (s : string) : string := dq ++ s ++ dq.

Definition validator (s : option ObjectSchema)
  : @JSONResponseValidator numbers collaborators :=
  @new_JSONResponseValidator numbers collaborators s None None None.

Definition stringResponse (text : string) : @PromptResponse :=
  {| status := "success"; response_message := IsString text |}.

Definition messageResponse (c : MessageContent) : @PromptResponse :=
  {| status := "success";
     response_message := IsMessage {| role := "assistant"; content := c |} |}.

(** The candidates of a response, the cleaning and the validity flag, as
    [validateResponse] obtains them. *)
Definition candidates (response : @PromptResponse) : list json :=
  @parseAllObjects numbers collaborators (textOf (response_message response)).

Definition clean (c : json) : json :=
  @removeEmptyValuesFromObject numbers collaborators c.

Definition accepts (s : ObjectSchema) (c : json) : bool :=
  result_valid (@validate numbers collaborators c s).

(** [validateResponse] of a validator built by the constructor with the
    default feedback texts, and the instances it hands to the validator. *)
Definition call (s : option ObjectSchema) (response : PromptResponse)
  : Completion (Promise (@Validation numbers)) :=
  @validateResponse numbers collaborators (validator s) tt tt tt response 0%Z.

Definition calls (s : option ObjectSchema) (response : PromptResponse)
  : list json :=
  snd (@validateResponse_calls numbers collaborators (validator s) tt tt tt
         response 0%Z).

(** An [age] that must be a number. *)
Definition ageSchema : ObjectSchema :=
  {| schema_properties := [("age", [KType "number"])]; schema_required := [] |}.

(** Three objects: the second one is accepted once its empty [notes] is
    removed, the third one is rejected. *)
Definition threeAges : string :=
  object [member "age" "1"] ++ " then " ++
  object [member "age" "2"; member "notes" "{}"] ++ " or " ++
  object [member "age" (quoted "x")].

Definition twoObjects : string :=
  object [member "a" "1"] ++ " and then " ++ object [member "a" "2"].

(** A list of [tags] without duplicates. *)
Definition tagsSchema : ObjectSchema :=
  {| schema_properties := [("tags", [KType "array"; KUniqueItems])];
     schema_required := [] |}.

Definition duplicateTags : string :=
  object [member "tags" ("[" ++ quoted "a" ++ "," ++ quoted "a" ++ "]")].

(** One object with an [id] and a duplicate among its [tags]. *)
Definition numberedDuplicateTags : string :=
  object [member "id" "7";
          member "tags" ("[" ++ quoted "b" ++ "," ++ quoted "b" ++ "]")].

(** Two rejected objects whose errors can be translated. *)
Definition twoRejectedAges : string :=
  object [member "age" "true"; member "tags" "7"] ++ " " ++
  object [member "age" (quoted "x")].

Definition ageAndTagsSchema : ObjectSchema :=
  {| schema_properties := [("age", [KType "number"]); ("tags", [KType "array"])];
     schema_required := ["id"] |}.

(** The descriptor [jsonschema] builds when the value of [when] is not one
    of the enumerated times [10:30] and [11:45]. *)
Definition timeEnumError : ValidationError numbers :=
  {| property := "instance.when";
     message := "is not one of enum values: 10:30,11:45";
     name := "enum";
     argument := VArr [VStr "10:30"; VStr "11:45"] |}.

Definition colourEnumError : ValidationError numbers :=
  {| property := "instance.colour";
     message := "is not one of enum values: red,green";
     name := "enum";
     argument := VArr [VStr "red"; VStr "green"] |}.

Definition duplicateItemsError : ValidationError numbers :=
  {| property := "instance.tags";
     message := "contains duplicate item";
     name := "uniqueItems";
     argument := VUndefined |}.

Definition typeError : ValidationError numbers :=
  {| property := "instance.age";
     message := "is not of a type(s) number,null";
     name := "type";
     argument := VArr [VStr "number"; VStr "null"] |}.

Definition ageAndUniqueTagsSchema : ObjectSchema :=
  {| schema_properties :=
       [("age", [KType "number"]); ("tags", [KType "array"; KUniqueItems])];
     schema_required := [] |}.

Definition oldAndDuplicateTags : string :=
  object [member "age" (quoted "old");
          member "tags" ("[" ++ quoted "a" ++ "," ++ quoted "a" ++ "]")].

(** The descriptor [jsonschema] builds for an [age] below the [minimum] of
    the schema. *)
Definition minimumError : ValidationError numbers :=
  {| property := "instance.age";
     message := "must be greater than or equal to 18";
     name := "minimum";
     argument := num 18 |}.

(** One of two enumerated times. *)
Definition whenSchema : ObjectSchema :=
  {| schema_properties := [("when", [KEnum [VStr "10:30"; VStr "11:45"]])];
     schema_required := [] |}.

Definition earlyTime : string := object [member "when" (quoted "9:00")].

End Sample.

(** * Properties *)

Section Properties.

Context {N : Numbers} {C : Collaborators N}.

Implicit Types (this : JSONResponseValidator) (response : PromptResponse).

(** ** The loop *)

Lemma firstn_succ_nth (A : Type) (d : A) (l : list A) (i : nat) :
  i < length l -> firstn (S i) l = (firstn i l ++ [nth i l d])%list.
Proof.
  revert i. induction l as [|a l IH]; intros i Hi.
  - simpl in Hi. lia.
  - destruct i as [|i].
    + reflexivity.
    + simpl in Hi. change (firstn (S (S i)) (a :: l)) with (a :: firstn (S i) l).
      rewrite (IH i) by lia. reflexivity.
Qed.

(** The loop started at [n] examines the first [n] candidates, the last of
    them first. *)
Lemma validationLoop_scan s parsed n errors calls :
  n <= length parsed ->
  validationLoop s parsed n errors calls
  = scan s (rev (firstn n parsed)) errors calls.
Proof.
  revert errors calls. induction n as [|i IH]; intros errors calls Hn.
  - reflexivity.
  - rewrite (firstn_succ_nth _ VUndefined) by lia.
    rewrite rev_unit. simpl.
    destruct (result_valid _); [reflexivity|].
    apply IH. lia.
Qed.

Lemma validationLoop_whole s parsed errors calls :
  validationLoop s parsed (length parsed) errors calls
  = scan s (rev parsed) errors calls.
Proof.
  rewrite validationLoop_scan by lia. rewrite firstn_all. reflexivity.
Qed.

(** A run of rejected candidates is examined to its end; [errors] takes the
    errors of the first of them if it was not set. *)
Lemma scan_rejected s l rest errors calls :
  Forall (rejected s) l ->
  scan s (l ++ rest)%list errors calls
  = scan s rest (errorsAfter s errors l)
      (calls ++ map removeEmptyValuesFromObject l)%list.
Proof.
  intros H. revert errors calls.
  induction H as [|c l Hc _ IH]; intros errors calls.
  - simpl. rewrite app_nil_r. destruct errors; reflexivity.
  - simpl. unfold rejected in Hc. rewrite Hc. rewrite IH.
    rewrite <- app_assoc. simpl.
    destruct errors; simpl; [reflexivity|].
    destruct l; reflexivity.
Qed.

Lemma length_nonzero (A : Type) (pre : list A) (c : A) (post : list A) :
  Nat.eqb (length (pre ++ c :: post)) 0 = false.
Proof.
  rewrite length_app. simpl. apply Nat.eqb_neq. lia.
Qed.

(** ** With a schema *)

(** C1. When the text holds at least one object and a schema is configured,
    the candidates are examined from the last one backward, each one is
    cleaned by [removeEmptyValuesFromObject] and the cleaned object is what
    the validator receives; the first cleaned candidate the validator
    accepts is returned as the valid value, and no candidate before it in
    the text is handed to the validator. *)
Theorem validateResponse_returns_last_valid_candidate
    this memory functions tokenizer response remaining_attempts
    (s : Schema) (pre : list (jsval N)) (c : jsval N) (post : list (jsval N)) :
  schema this = Some s ->
  parseAllObjects (textOf (response_message response)) = (pre ++ c :: post)%list ->
  result_valid (validate (removeEmptyValuesFromObject c) s) = true ->
  Forall (fun o => result_valid (validate (removeEmptyValuesFromObject o) s) = false)
    post ->
  validateResponse this memory functions tokenizer response remaining_attempts
  = Return (Promise_resolve (Valid (removeEmptyValuesFromObject c)))
  /\ snd (validateResponse_calls this memory functions tokenizer response
            remaining_attempts)
     = (map removeEmptyValuesFromObject (rev post)
        ++ [removeEmptyValuesFromObject c])%list.
Proof.
  intros Hs Hp Hc Hpost.
  assert (E : validateResponse_calls this memory functions tokenizer response
                remaining_attempts
              = (Return (Promise_resolve (Valid (removeEmptyValuesFromObject c))),
                 (map removeEmptyValuesFromObject (rev post)
                  ++ [removeEmptyValuesFromObject c])%list)).
  { unfold validateResponse_calls. rewrite Hp, length_nonzero, Hs.
    rewrite validationLoop_whole.
    rewrite rev_app_distr. simpl. rewrite <- app_assoc. simpl.
    rewrite scan_rejected by (apply Forall_rev; exact Hpost).
    simpl. rewrite Hc. reflexivity. }
  unfold validateResponse. rewrite E. split; reflexivity.
Qed.

(** When every candidate is rejected, the loop ends with the errors of the
    last object of the text, and the validator has seen every cleaned
    candidate, the last one first. *)
Lemma validateResponse_calls_all_rejected
    this memory functions tokenizer response remaining_attempts
    (s : Schema) (pre : list (jsval N)) (c : jsval N) :
  schema this = Some s ->
  parseAllObjects (textOf (response_message response)) = (pre ++ [c])%list ->
  Forall (rejected s) (pre ++ [c])%list ->
  validateResponse_calls this memory functions tokenizer response remaining_attempts
  = (errorValidation this
       (Some (result_errors (validate (removeEmptyValuesFromObject c) s))),
     map removeEmptyValuesFromObject (rev (pre ++ [c]))%list).
Proof.
  intros Hs Hp Hall.
  unfold validateResponse_calls. rewrite Hp, length_nonzero, Hs.
  rewrite validationLoop_whole.
  rewrite <- (app_nil_r (rev (pre ++ [c]))) at 1.
  rewrite scan_rejected by (apply Forall_rev; exact Hall).
  rewrite rev_unit. reflexivity.
Qed.

(** ** Without a schema *)

(** C2. When the text holds at least one object and no schema is
    configured, the last object of the text is returned as the valid value,
    whatever the objects before it are, and the validator is not called. *)
Theorem validateResponse_without_schema_returns_last
    this memory functions tokenizer response remaining_attempts
    (pre : list (jsval N)) (c : jsval N) :
  schema this = None ->
  parseAllObjects (textOf (response_message response)) = (pre ++ [c])%list ->
  validateResponse_calls this memory functions tokenizer response remaining_attempts
  = (Return (Promise_resolve (Valid c)), []).
Proof.
  intros Hs Hp.
  unfold validateResponse_calls. rewrite Hp, length_nonzero, Hs.
  rewrite length_app. simpl.
  replace (length pre + 1 - 1) with (length pre) by lia.
  rewrite app_nth2 by lia. rewrite Nat.sub_diag. reflexivity.
Qed.

(** ** Without any object *)

(** C3. When no object is extracted from the text, a message whose content
    is [null] gives the valid value [null], and every other message gives
    an invalid result with the configured missing-JSON feedback. *)
Theorem validateResponse_without_objects
    this memory functions tokenizer response remaining_attempts :
  parseAllObjects (textOf (response_message response)) = [] ->
  (forall r, response_message response = IsMessage {| role := r; content := ContentNull |} ->
     validateResponse this memory functions tokenizer response remaining_attempts
     = Return (Promise_resolve (Valid VNull)))
  /\ ((forall r, response_message response <> IsMessage {| role := r; content := ContentNull |}) ->
     validateResponse this memory functions tokenizer response remaining_attempts
     = Return (Promise_resolve (Invalid (missingJsonFeedback this)))).
Proof.
  intros Hp. unfold validateResponse, validateResponse_calls. rewrite Hp. simpl.
  split.
  - intros r Hm. rewrite Hm. reflexivity.
  - intros Hm. destruct (response_message response) as [t|[r [| |t]]];
      try reflexivity.
    exfalso. apply (Hm r). reflexivity.
Qed.

(** C10. A structured message whose content is absent or [undefined] is
    handled as the empty text is: the outcome is that of the string message
    with no character, which is the invalid result with the missing-JSON
    feedback as soon as the empty text holds no object. When no object is
    extracted, the valid value [null] is returned only for a structured
    message whose content is [null]. *)
Theorem validateResponse_undefined_content_is_missing_json
    this memory functions tokenizer (st r : string) remaining_attempts :
  let response :=
    {| status := st;
       response_message := IsMessage {| role := r; content := ContentUndefined |} |} in
  validateResponse this memory functions tokenizer response remaining_attempts
  = validateResponse this memory functions tokenizer
      {| status := st; response_message := IsString EmptyString |} remaining_attempts
  /\ (parseAllObjects EmptyString = [] ->
      validateResponse this memory functions tokenizer response remaining_attempts
      = Return (Promise_resolve (Invalid (missingJsonFeedback this))))
  /\ (forall response',
        parseAllObjects (textOf (response_message response')) = [] ->
        validateResponse this memory functions tokenizer response' remaining_attempts
        = Return (Promise_resolve (Valid VNull)) ->
        exists r', response_message response'
                   = IsMessage {| role := r'; content := ContentNull |}).
Proof.
  intros response. split; [|split].
  - unfold validateResponse, validateResponse_calls. simpl.
    destruct (Nat.eqb _ 0); reflexivity.
  - intros Hp. unfold validateResponse, validateResponse_calls. simpl.
    rewrite Hp. reflexivity.
  - intros response' Hp. unfold validateResponse, validateResponse_calls.
    rewrite Hp. simpl.
    destruct (response_message response') as [t|[r' [| |t]]]; simpl;
      intros H; try discriminate H.
    exists r'. reflexivity.
Qed.

(** ** What the result depends on *)

(** C9. The result of [validateResponse], and the instances it hands to the
    validator, are the same for any two values of [remaining_attempts]. *)
Theorem validateResponse_ignores_remaining_attempts
    this memory functions tokenizer response (a a' : number) :
  validateResponse_calls this memory functions tokenizer response a
  = validateResponse_calls this memory functions tokenizer response a'
  /\ validateResponse this memory functions tokenizer response a
     = validateResponse this memory functions tokenizer response a'.
Proof.
  split; reflexivity.
Qed.

(** ** getErrorFix *)

Lemma JSON_stringify_defined (v : jsval N) :
  v <> VUndefined -> exists t, JSON_stringify v = Some t.
Proof.
  destruct v; intros H; try (eexists; reflexivity).
  exfalso. apply H. reflexivity.
Qed.

(** An argument that is not [undefined] is turned into one string, by kind
    of value: an array gives its elements joined by commas, an object (and
    [null]) gives its JSON text, a boolean, a number or a string gives its
    own string form. The templates for [type], [anyOf],
    [additionalProperties], [required], [format] and [const] all print that
    one string. *)
Theorem getErrorFix_argument_stringification :
  (forall l : list (jsval N),
     argumentString (VArr l) = Return (join "," (map elementString l)))
  /\ (forall ps : list (string * jsval N),
        exists t, JSON_stringify (VObj ps) = Some t
                  /\ argumentString (VObj ps) = Return t)
  /\ argumentString (@VNull N) = Return "null"
  /\ (forall b : bool,
        argumentString (@VBool N b) = Return (if b then "true" else "false"))
  /\ (forall n : number, argumentString (VNum n) = Return (Number_toString n))
  /\ (forall s : string, argumentString (@VStr N s) = Return s)
  /\ (forall (error : ValidationError N) (arg : string),
        argumentString (argument error) = Return arg ->
        (name error = "type" ->
         getErrorFix error
         = Return ("convert " ++ dq ++ property error ++ dq ++ " to a " ++ arg))
        /\ (name error = "anyOf" ->
            getErrorFix error
            = Return ("convert " ++ dq ++ property error ++ dq ++
                      " to one of the allowed types: " ++ arg))
        /\ (name error = "additionalProperties" ->
            getErrorFix error
            = Return ("remove the " ++ dq ++ arg ++ dq ++ " property from " ++
                      dq ++ property error ++ dq))
        /\ (name error = "required" ->
            getErrorFix error
            = Return ("add the " ++ dq ++ arg ++ dq ++ " property to " ++
                      dq ++ property error ++ dq))
        /\ (name error = "format" ->
            getErrorFix error
            = Return ("change the " ++ dq ++ property error ++ dq ++
                      " property to be a " ++ arg))
        /\ (name error = "const" ->
            getErrorFix error
            = Return ("change the " ++ dq ++ property error ++ dq ++
                      " property to be " ++ arg))).
Proof.
  repeat split; try reflexivity.
  - eexists. split; reflexivity.
  - intros Hn. unfold getErrorFix. rewrite H, Hn. reflexivity.
  - intros Hn. unfold getErrorFix. rewrite H, Hn. reflexivity.
  - intros Hn. unfold getErrorFix. rewrite H, Hn. reflexivity.
  - intros Hn. unfold getErrorFix. rewrite H, Hn. reflexivity.
  - intros Hn. unfold getErrorFix. rewrite H, Hn. reflexivity.
  - intros Hn. unfold getErrorFix. rewrite H, Hn. reflexivity.
Qed.

(** An error descriptor without an argument cannot be translated, whatever
    its kind: reading [toString] from [undefined] raises. *)
Lemma getErrorFix_raises_without_argument (error : ValidationError N) :
  argument error = VUndefined ->
  getErrorFix error = Throw (TypeError "toString").
Proof.
  intros H. unfold getErrorFix. rewrite H. reflexivity.
Qed.

Lemma split_head (sep : ascii) (s : string) :
  nth_error (split sep s) 0 = Some (beforeFirst sep s).
Proof.
  induction s as [|c r IH]; simpl.
  - reflexivity.
  - destruct (Ascii.eqb c sep); [reflexivity|].
    destruct (split sep r) as [|h t]; simpl in *.
    + discriminate IH.
    + injection IH as ->. reflexivity.
Qed.

(** The second piece of a split text lies between the first separator and
    the next one. *)
Lemma split_second (sep : ascii) (s : string) :
  nth_error (split sep s) 1
  = option_map (beforeFirst sep) (afterFirst sep s).
Proof.
  induction s as [|c r IH]; simpl.
  - reflexivity.
  - destruct (Ascii.eqb c sep).
    + simpl. apply split_head.
    + destruct (split sep r) as [|h t]; simpl in *; exact IH.
Qed.

Lemma beforeFirst_without (sep : ascii) (s : string) :
  occurrences sep s = 0 -> beforeFirst sep s = s.
Proof.
  induction s as [|c r IH]; simpl; [reflexivity|].
  destruct (Ascii.eqb c sep); [discriminate|].
  intros H. rewrite IH by exact H. reflexivity.
Qed.

Lemma afterFirst_single (sep : ascii) (s : string) :
  occurrences sep s = 1 ->
  exists rest, afterFirst sep s = Some rest /\ beforeFirst sep rest = rest.
Proof.
  induction s as [|c r IH]; simpl; [discriminate|].
  destruct (Ascii.eqb c sep); simpl.
  - intros H. exists r. split; [reflexivity|].
    apply beforeFirst_without. lia.
  - exact IH.
Qed.

(** The line for an [enum] error, as the code builds it: the text between
    the first colon of the message and the next one, trimmed; a message
    without a colon raises. *)
Lemma getErrorFix_enum (error : ValidationError N) (arg : string) :
  name error = "enum" ->
  argumentString (argument error) = Return arg ->
  getErrorFix error
  = match afterFirst ":" (message error) with
    | Some rest =>
        Return ("change the " ++ dq ++ property error ++ dq ++
                " property to be one of these values: " ++
                trim (beforeFirst ":" rest))
    | None => Throw (TypeError "trim")
    end.
Proof.
  intros Hn Ha. unfold getErrorFix. rewrite Ha, Hn.
  rewrite split_second.
  destruct (afterFirst ":" (message error)); reflexivity.
Qed.

(** When the message has one colon, the line for an [enum] error ends with
    the text after that colon, trimmed. *)
Lemma getErrorFix_enum_single_colon (error : ValidationError N) (arg : string) :
  name error = "enum" ->
  argumentString (argument error) = Return arg ->
  occurrences ":" (message error) = 1 ->
  exists rest,
    afterFirst ":" (message error) = Some rest
    /\ getErrorFix error
       = Return ("change the " ++ dq ++ property error ++ dq ++
                 " property to be one of these values: " ++ trim rest).
Proof.
  intros Hn Ha Hc.
  destruct (afterFirst_single _ _ Hc) as [rest [Hr Hb]].
  exists rest. split; [exact Hr|].
  unfold getErrorFix. rewrite Ha, Hn, split_second, Hr.
  simpl. rewrite Hb. reflexivity.
Qed.

(** When every candidate is rejected and every error of the last object of
    the text can be translated, the result is invalid and its feedback is
    the header, a line feed, and the translated lines of that object's
    errors joined by line feeds. *)
Lemma validateResponse_feedback_from_last_candidate
    this memory functions tokenizer response remaining_attempts
    (s : Schema) (pre : list (jsval N)) (c : jsval N) (fixes : list string) :
  schema this = Some s ->
  parseAllObjects (textOf (response_message response)) = (pre ++ [c])%list ->
  Forall (rejected s) (pre ++ [c])%list ->
  mapM getErrorFix (result_errors (validate (removeEmptyValuesFromObject c) s))
  = Return fixes ->
  validateResponse this memory functions tokenizer response remaining_attempts
  = Return (Promise_resolve (Invalid (errorFeedback this ++ LF ++ join LF fixes))).
Proof.
  intros Hs Hp Hall Hf. unfold validateResponse.
  rewrite (validateResponse_calls_all_rejected _ _ _ _ _ _ s pre c Hs Hp Hall).
  simpl. rewrite Hf. reflexivity.
Qed.

(** When every candidate is rejected, the validator is handed every cleaned
    candidate, from the last object of the text back to the first. *)
Lemma validateResponse_scans_every_rejected_candidate
    this memory functions tokenizer response remaining_attempts
    (s : Schema) (pre : list (jsval N)) (c : jsval N) :
  schema this = Some s ->
  parseAllObjects (textOf (response_message response)) = (pre ++ [c])%list ->
  Forall (rejected s) (pre ++ [c])%list ->
  snd (validateResponse_calls this memory functions tokenizer response
         remaining_attempts)
  = (removeEmptyValuesFromObject c
     :: map removeEmptyValuesFromObject (rev pre))%list.
Proof.
  intros Hs Hp Hall.
  rewrite (validateResponse_calls_all_rejected _ _ _ _ _ _ s pre c Hs Hp Hall).
  simpl. rewrite rev_unit. reflexivity.
Qed.

Lemma mapM_raises (A B : Type) (f : A -> Completion B)
    (done : list A) (a : A) (rest : list A) (bs : list B) (e : Exception) :
  mapM f done = Return bs ->
  f a = Throw e ->
  mapM f (done ++ a :: rest)%list = Throw e.
Proof.
  revert bs. induction done as [|d done IH]; intros bs Hd Ha; simpl.
  - rewrite Ha. reflexivity.
  - simpl in Hd. destruct (f d) as [b|x]; simpl in *; [|discriminate Hd].
    destruct (mapM f done) as [bs'|x]; simpl in *; [|discriminate Hd].
    rewrite (IH bs' eq_refl Ha). reflexivity.
Qed.

(** When every candidate is rejected and the errors of the last object of
    the text hold a descriptor without an argument, after descriptors that
    can be translated, [validateResponse] raises. *)
Lemma validateResponse_raises_when_argument_missing
    this memory functions tokenizer response remaining_attempts
    (s : Schema) (pre : list (jsval N)) (c : jsval N)
    (done : list (ValidationError N)) (error : ValidationError N)
    (rest : list (ValidationError N)) (fixes : list string) :
  schema this = Some s ->
  parseAllObjects (textOf (response_message response)) = (pre ++ [c])%list ->
  Forall (rejected s) (pre ++ [c])%list ->
  result_errors (validate (removeEmptyValuesFromObject c) s)
  = (done ++ error :: rest)%list ->
  mapM getErrorFix done = Return fixes ->
  argument error = VUndefined ->
  validateResponse this memory functions tokenizer response remaining_attempts
  = Throw (TypeError "toString").
Proof.
  intros Hs Hp Hall He Hd Ha. unfold validateResponse.
  rewrite (validateResponse_calls_all_rejected _ _ _ _ _ _ s pre c Hs Hp Hall).
  simpl. rewrite He.
  rewrite (mapM_raises _ _ getErrorFix done error rest fixes
             (TypeError "toString") Hd).
  - reflexivity.
  - unfold getErrorFix. rewrite Ha. reflexivity.
Qed.

(** ** Every way through the loop *)

Lemma first_accepted_split (A : Type) (p : A -> bool) (l : list A) :
  existsb p l = true ->
  exists fails c rest,
    l = (fails ++ c :: rest)%list
    /\ Forall (fun o => p o = false) fails /\ p c = true.
Proof.
  induction l as [|a l IH]; simpl; intros H.
  - discriminate H.
  - destruct (p a) eqn:Ha.
    + exists [], a, l. repeat split; [constructor | exact Ha].
    + simpl in H. destruct (IH H) as [fails [c [rest [El [Hf Hc]]]]].
      exists (a :: fails), c, rest. rewrite El.
      repeat split; [constructor; assumption | exact Hc].
Qed.

Lemma none_accepted_all_rejected (A : Type) (p : A -> bool) (l : list A) :
  existsb p l = false -> Forall (fun o => p o = false) l.
Proof.
  induction l as [|a l IH]; simpl; intros H.
  - constructor.
  - apply orb_false_iff in H. destruct H as [Ha Hl].
    constructor; [exact Ha | exact (IH Hl)].
Qed.

Lemma nonempty_last (A : Type) (l : list A) :
  l <> [] -> exists pre c, l = (pre ++ [c])%list.
Proof.
  intros H. destruct (exists_last H) as [pre [c E]]. exists pre, c. exact E.
Qed.

(** With a schema and at least one object, the call ends in one of two
    ways: with the first accepted candidate of the reversed list, after
    rejected ones only, or with the errors of the last object of the text
    when every candidate is rejected. *)
Lemma validateResponse_calls_cases
    this memory functions tokenizer response remaining_attempts (s : Schema) :
  schema this = Some s ->
  parseAllObjects (textOf (response_message response)) <> [] ->
  let parsed := parseAllObjects (textOf (response_message response)) in
  (exists fails c rest,
     rev parsed = (fails ++ c :: rest)%list
     /\ Forall (rejected s) fails /\ accepted s c = true
     /\ validateResponse_calls this memory functions tokenizer response
          remaining_attempts
        = (Return (Promise_resolve (Valid (removeEmptyValuesFromObject c))),
           (map removeEmptyValuesFromObject fails
            ++ [removeEmptyValuesFromObject c])%list))
  \/ (exists pre c,
        parsed = (pre ++ [c])%list
        /\ Forall (rejected s) (pre ++ [c])%list
        /\ validateResponse_calls this memory functions tokenizer response
             remaining_attempts
           = (errorValidation this
                (Some (result_errors (validate (removeEmptyValuesFromObject c) s))),
              map removeEmptyValuesFromObject (rev (pre ++ [c]))%list)).
Proof.
  intros Hs Hne parsed.
  destruct (existsb (accepted s) (rev parsed)) eqn:Hex.
  - left. destruct (first_accepted_split _ _ _ Hex) as [fails [c [rest [El [Hf Hc]]]]].
    exists fails, c, rest. repeat split; try assumption.
    unfold validateResponse_calls. fold parsed.
    destruct parsed as [|c0 parsed'] eqn:Ep; [contradiction Hne; reflexivity|].
    rewrite <- Ep. replace (Nat.eqb (length parsed) 0) with false
      by (rewrite Ep; reflexivity).
    rewrite Hs, validationLoop_whole.
    rewrite Ep in *. rewrite El.
    rewrite scan_rejected by exact Hf.
    simpl. unfold accepted in Hc. rewrite Hc. reflexivity.
  - right. destruct (nonempty_last _ _ Hne) as [pre [c E]].
    exists pre, c. fold parsed in E.
    assert (Hall : Forall (rejected s) (pre ++ [c])%list).
    { rewrite <- E. apply none_accepted_all_rejected in Hex.
      apply Forall_rev in Hex. rewrite rev_involutive in Hex. exact Hex. }
    repeat split; try assumption.
    apply validateResponse_calls_all_rejected; assumption.
Qed.

Lemma errorValidation_cases this (es : list (ValidationError N)) :
  (exists fixes,
     mapM getErrorFix es = Return fixes
     /\ errorValidation this (Some es)
        = Return (Promise_resolve
                    (Invalid (errorFeedback this ++ LF ++ join LF fixes))))
  \/ (exists e,
        mapM getErrorFix es = Throw e
        /\ errorValidation this (Some es) = Throw e).
Proof.
  unfold errorValidation. destruct (mapM getErrorFix es) as [fixes|e].
  - left. exists fixes. split; reflexivity.
  - right. exists e. split; reflexivity.
Qed.

(** With a schema, a value returned as valid is a candidate of the text,
    cleaned, that the validator accepts in that cleaned form. *)
Lemma validateResponse_valid_value_is_accepted
    this memory functions tokenizer response remaining_attempts
    (s : Schema) (r : Validation) :
  schema this = Some s ->
  parseAllObjects (textOf (response_message response)) <> [] ->
  validateResponse this memory functions tokenizer response remaining_attempts
  = Return (Promise_resolve r) ->
  valid r = true ->
  exists c,
    In c (parseAllObjects (textOf (response_message response)))
    /\ value r = Some (removeEmptyValuesFromObject c)
    /\ result_valid (validate (removeEmptyValuesFromObject c) s) = true.
Proof.
  intros Hs Hne Hr Hv. unfold validateResponse in Hr.
  destruct (validateResponse_calls_cases this memory functions tokenizer
              response remaining_attempts s Hs Hne)
    as [[fails [c [rest [El [_ [Hc E]]]]]] | [pre [c [_ [_ E]]]]];
    rewrite E in Hr; cbn [fst] in Hr.
  - injection Hr as <-. exists c. repeat split; [|exact Hc].
    apply in_rev. rewrite El. apply in_or_app. right. left. reflexivity.
  - destruct (errorValidation_cases this
                (result_errors (validate (removeEmptyValuesFromObject c) s)))
      as [[fixes [_ E']] | [e [_ E']]]; rewrite E' in Hr.
    + injection Hr as <-. discriminate Hv.
    + discriminate Hr.
Qed.

(** With a schema and collaborators that return, as soon as one candidate
    of the text is accepted once cleaned, the call returns a valid result:
    no feedback is built and [getErrorFix] is not reached, whatever the
    errors of the other candidates are. *)
Lemma validateResponse_valid_when_some_candidate_accepted
    this memory functions tokenizer response remaining_attempts
    (s : Schema) (c : jsval N) :
  schema this = Some s ->
  In c (parseAllObjects (textOf (response_message response))) ->
  result_valid (validate (removeEmptyValuesFromObject c) s) = true ->
  exists c',
    In c' (parseAllObjects (textOf (response_message response)))
    /\ result_valid (validate (removeEmptyValuesFromObject c') s) = true
    /\ validateResponse this memory functions tokenizer response
         remaining_attempts
       = Return (Promise_resolve (Valid (removeEmptyValuesFromObject c'))).
Proof.
  intros Hs Hin Hc.
  assert (Hne : parseAllObjects (textOf (response_message response)) <> []).
  { intros E. rewrite E in Hin. exact Hin. }
  unfold validateResponse.
  destruct (validateResponse_calls_cases this memory functions tokenizer
              response remaining_attempts s Hs Hne)
    as [[fails [c' [rest [El [_ [Hc' E]]]]]] | [pre [c' [Ep [Hall _]]]]].
  - exists c'. rewrite E. repeat split; [|exact Hc'].
    apply in_rev. rewrite El. apply in_or_app. right. left. reflexivity.
  - exfalso. rewrite <- Ep in Hall. rewrite Forall_forall in Hall.
    specialize (Hall c Hin). unfold rejected in Hall.
    rewrite Hc in Hall. discriminate Hall.
Qed.

(** When its collaborators return, [validateResponse] raises by its own
    code in one situation only: a schema is configured, the text holds an
    object, every candidate is rejected, and translating the errors of the
    last object of the text raises. The exception is the one of that
    translation. *)
Lemma validateResponse_raises_iff
    this memory functions tokenizer response remaining_attempts (e : Exception) :
  validateResponse this memory functions tokenizer response remaining_attempts
  = Throw e
  <-> exists s pre c,
        schema this = Some s
        /\ parseAllObjects (textOf (response_message response)) = (pre ++ [c])%list
        /\ Forall (rejected s) (pre ++ [c])%list
        /\ mapM getErrorFix
             (result_errors (validate (removeEmptyValuesFromObject c) s))
           = Throw e.
Proof.
  split.
  - intros H.
    destruct (parseAllObjects (textOf (response_message response))) as [|c0 l]
      eqn:Ep.
    + unfold validateResponse, validateResponse_calls in H. rewrite Ep in H.
      simpl in H. destruct (hasNullContent _); discriminate H.
    + destruct (schema this) as [s|] eqn:Hs.
      * assert (Hne : parseAllObjects (textOf (response_message response)) <> [])
          by (rewrite Ep; discriminate).
        unfold validateResponse in H.
        destruct (validateResponse_calls_cases this memory functions tokenizer
                    response remaining_attempts s Hs Hne)
          as [[fails [c [rest [_ [_ [_ E]]]]]] | [pre [c [Ep' [Hall E]]]]];
          rewrite E in H; cbn [fst] in H.
        -- discriminate H.
        -- exists s, pre, c. rewrite <- Ep, Ep'. repeat split; try assumption.
           destruct (errorValidation_cases this
                       (result_errors (validate (removeEmptyValuesFromObject c) s)))
             as [[fixes [_ E']] | [e' [Hm E']]]; rewrite E' in H.
           ++ discriminate H.
           ++ injection H as <-. exact Hm.
      * unfold validateResponse, validateResponse_calls in H.
        rewrite Ep, Hs in H. discriminate H.
  - intros [s [pre [c [Hs [Hp [Hall Hm]]]]]]. unfold validateResponse.
    rewrite (validateResponse_calls_all_rejected _ _ _ _ _ _ s pre c Hs Hp Hall).
    simpl. rewrite Hm. reflexivity.
Qed.

(** A result that is returned has one of three shapes: a valid value; the
    missing-JSON feedback, when the text holds no object; or, when it holds
    one and a schema is configured, the error-feedback header, a line feed
    and lines joined by line feeds. *)
Lemma validateResponse_result_shape
    this memory functions tokenizer response remaining_attempts (r : Validation) :
  validateResponse this memory functions tokenizer response remaining_attempts
  = Return (Promise_resolve r) ->
  (exists v, r = Valid v)
  \/ (r = Invalid (missingJsonFeedback this)
      /\ parseAllObjects (textOf (response_message response)) = [])
  \/ (exists lines,
        r = Invalid (errorFeedback this ++ LF ++ join LF lines)
        /\ parseAllObjects (textOf (response_message response)) <> []
        /\ schema this <> None).
Proof.
  intros H.
  destruct (parseAllObjects (textOf (response_message response))) as [|c0 l]
    eqn:Ep.
  - unfold validateResponse, validateResponse_calls in H. rewrite Ep in H.
    simpl in H. destruct (hasNullContent _); injection H as <-.
    + left. eexists. reflexivity.
    + right. left. split; reflexivity.
  - destruct (schema this) as [s|] eqn:Hs.
    + assert (Hne : parseAllObjects (textOf (response_message response)) <> [])
        by (rewrite Ep; discriminate).
      unfold validateResponse in H.
      destruct (validateResponse_calls_cases this memory functions tokenizer
                  response remaining_attempts s Hs Hne)
        as [[fails [c [rest [_ [_ [_ E]]]]]] | [pre [c [_ [_ E]]]]];
        rewrite E in H; cbn [fst] in H.
      * injection H as <-. left. eexists. reflexivity.
      * destruct (errorValidation_cases this
                    (result_errors (validate (removeEmptyValuesFromObject c) s)))
          as [[fixes [_ E']] | [e' [_ E']]]; rewrite E' in H.
        -- injection H as <-. right. right. exists fixes.
           repeat split; discriminate.
        -- discriminate H.
    + unfold validateResponse, validateResponse_calls in H.
      rewrite Ep, Hs in H. simpl in H. injection H as <-.
      left. eexists. reflexivity.
Qed.

(** The instances handed to the validator are cleaned candidates taken from
    the end of the text backward, without a gap: they form a prefix of the
    cleaned candidates in reverse order, so the validator is called at most
    once per candidate. *)
Lemma validateResponse_calls_prefix
    this memory functions tokenizer response remaining_attempts :
  exists rest,
    map removeEmptyValuesFromObject
      (rev (parseAllObjects (textOf (response_message response))))
    = (snd (validateResponse_calls this memory functions tokenizer response
              remaining_attempts) ++ rest)%list.
Proof.
  destruct (parseAllObjects (textOf (response_message response))) as [|c0 l]
    eqn:Ep.
  - unfold validateResponse_calls. rewrite Ep. simpl.
    destruct (hasNullContent _); exists []; reflexivity.
  - destruct (schema this) as [s|] eqn:Hs.
    + assert (Hne : parseAllObjects (textOf (response_message response)) <> [])
        by (rewrite Ep; discriminate).
      destruct (validateResponse_calls_cases this memory functions tokenizer
                  response remaining_attempts s Hs Hne)
        as [[fails [c [rest [El [_ [_ E]]]]]] | [pre [c [Ep' [_ E]]]]];
        rewrite <- Ep, E; cbn [snd].
      * exists (map removeEmptyValuesFromObject rest).
        rewrite El, map_app. simpl.
        rewrite <- app_assoc. reflexivity.
      * exists []. rewrite app_nil_r, Ep'. reflexivity.
    + unfold validateResponse_calls. rewrite Ep, Hs. simpl. eexists. reflexivity.
Qed.

(** ** Every way through getErrorFix *)

Lemma argumentString_returns (a : jsval N) :
  a <> VUndefined -> exists arg, argumentString a = Return arg.
Proof.
  destruct a; intros H; try (eexists; reflexivity).
  exfalso. apply H. reflexivity.
Qed.

Lemma getErrorFix_translatable (error : ValidationError N) :
  argument error <> VUndefined ->
  (name error = "enum" -> afterFirst ":" (message error) <> None) ->
  exists line, getErrorFix error = Return line.
Proof.
  intros Ha Hc. destruct (argumentString_returns _ Ha) as [arg Ea].
  unfold getErrorFix. rewrite Ea. cbn [bind].
  destruct (String.eqb (name error) "type"); [eexists; reflexivity|].
  destruct (String.eqb (name error) "anyOf"); [eexists; reflexivity|].
  destruct (String.eqb (name error) "additionalProperties");
    [eexists; reflexivity|].
  destruct (String.eqb (name error) "required"); [eexists; reflexivity|].
  destruct (String.eqb (name error) "format"); [eexists; reflexivity|].
  destruct (String.eqb (name error) "uniqueItems"); [eexists; reflexivity|].
  destruct (String.eqb (name error) "enum") eqn:En.
  - apply String.eqb_eq in En. specialize (Hc En). rewrite split_second.
    destruct (afterFirst ":" (message error)); [eexists; reflexivity|].
    exfalso. apply Hc. reflexivity.
  - destruct (String.eqb (name error) "const"); eexists; reflexivity.
Qed.

(** A descriptor is translated into a line exactly when it has an argument
    and, for the kind [enum], its message holds a colon; every other
    descriptor makes [getErrorFix] raise. *)
Lemma getErrorFix_returns_iff (error : ValidationError N) :
  (exists line, getErrorFix error = Return line)
  <-> argument error <> VUndefined
      /\ (name error = "enum" -> afterFirst ":" (message error) <> None).
Proof.
  split.
  - intros [line H]. split.
    + intros Ha. unfold getErrorFix in H. rewrite Ha in H. discriminate H.
    + intros Hn Hc. unfold getErrorFix in H.
      destruct (argumentString (argument error)) as [arg|e].
      * rewrite Hn, split_second, Hc in H. discriminate H.
      * discriminate H.
  - intros [Ha Hc]. apply getErrorFix_translatable; assumption.
Qed.

Lemma mapM_returns (A B : Type) (f : A -> Completion B) (l : list A) :
  (forall a, In a l -> exists b, f a = Return b) ->
  exists bs,
    mapM f l = Return bs /\ Forall2 (fun a b => f a = Return b) l bs.
Proof.
  induction l as [|a l IH]; intros H.
  - exists []. split; [reflexivity | constructor].
  - destruct (H a (or_introl eq_refl)) as [b Hb].
    destruct (IH (fun x Hx => H x (or_intror Hx))) as [bs [Hm Hf]].
    exists (b :: bs). split.
    + simpl. rewrite Hb. simpl. rewrite Hm. reflexivity.
    + constructor; assumption.
Qed.

(** When every candidate is rejected and every error of the last object of
    the text has an argument, and a colon in its message if its kind is
    [enum], the call returns an invalid result whose feedback holds, after
    the header, one line per error, in the order of the errors. *)
Lemma validateResponse_feedback_line_per_error
    this memory functions tokenizer response remaining_attempts
    (s : Schema) (pre : list (jsval N)) (c : jsval N) :
  schema this = Some s ->
  parseAllObjects (textOf (response_message response)) = (pre ++ [c])%list ->
  Forall (rejected s) (pre ++ [c])%list ->
  (forall error,
     In error (result_errors (validate (removeEmptyValuesFromObject c) s)) ->
     argument error <> VUndefined
     /\ (name error = "enum" -> afterFirst ":" (message error) <> None)) ->
  exists lines,
    Forall2 (fun error line => getErrorFix error = Return line)
      (result_errors (validate (removeEmptyValuesFromObject c) s)) lines
    /\ validateResponse this memory functions tokenizer response
         remaining_attempts
       = Return (Promise_resolve
                   (Invalid (errorFeedback this ++ LF ++ join LF lines))).
Proof.
  intros Hs Hp Hall Hd.
  destruct (mapM_returns _ _ getErrorFix
              (result_errors (validate (removeEmptyValuesFromObject c) s)))
    as [lines [Hm Hf]].
  { intros error Hin. destruct (Hd error Hin) as [Ha Hc].
    apply getErrorFix_translatable; assumption. }
  exists lines. split; [exact Hf|]. unfold validateResponse.
  rewrite (validateResponse_calls_all_rejected _ _ _ _ _ _ s pre c Hs Hp Hall).
  simpl. rewrite Hm. reflexivity.
Qed.

Lemma string_app_assoc (a b c : string) : (a ++ b) ++ c = a ++ (b ++ c).
Proof.
  induction a as [|x a IH]; simpl; [reflexivity|]. rewrite IH. reflexivity.
Qed.

Lemma string_app_nil_r (a : string) : a ++ EmptyString = a.
Proof.
  induction a as [|x a IH]; simpl; [reflexivity|]. rewrite IH. reflexivity.
Qed.

Lemma Return_injective (A : Type) (a b : A) : Return a = Return b -> a = b.
Proof.
  intros H. injection H as E. exact E.
Qed.

(** Every line that [getErrorFix] returns names the property of its
    descriptor between double quotes. *)
Lemma getErrorFix_line_quotes_property (error : ValidationError N) (line : string) :
  getErrorFix error = Return line ->
  exists before after,
    line = before ++ dq ++ property error ++ dq ++ after.
Proof.
  unfold getErrorFix.
  destruct (argumentString (argument error)) as [arg|e]; [|discriminate].
  cbn [bind].
  destruct (String.eqb (name error) "type").
  { intros H. apply Return_injective in H. rewrite <- H.
    exists "convert ", (" to a " ++ arg). reflexivity. }
  destruct (String.eqb (name error) "anyOf").
  { intros H. apply Return_injective in H. rewrite <- H.
    exists "convert ", (" to one of the allowed types: " ++ arg). reflexivity. }
  destruct (String.eqb (name error) "additionalProperties").
  { intros H. apply Return_injective in H. rewrite <- H.
    exists ("remove the " ++ dq ++ arg ++ dq ++ " property from "), EmptyString.
    rewrite string_app_nil_r, !string_app_assoc. reflexivity. }
  destruct (String.eqb (name error) "required").
  { intros H. apply Return_injective in H. rewrite <- H.
    exists ("add the " ++ dq ++ arg ++ dq ++ " property to "), EmptyString.
    rewrite string_app_nil_r, !string_app_assoc. reflexivity. }
  destruct (String.eqb (name error) "format").
  { intros H. apply Return_injective in H. rewrite <- H.
    exists "change the ", (" property to be a " ++ arg). reflexivity. }
  destruct (String.eqb (name error) "uniqueItems").
  { intros H. apply Return_injective in H. rewrite <- H.
    exists "remove all duplicate items from ", EmptyString.
    rewrite string_app_nil_r. reflexivity. }
  destruct (String.eqb (name error) "enum").
  { destruct (nth_error (split ":" (message error)) 1) as [part|];
      [|discriminate].
    intros H. apply Return_injective in H. rewrite <- H.
    exists "change the ",
      (" property to be one of these values: " ++ trim part).
    reflexivity. }
  destruct (String.eqb (name error) "const").
  { intros H. apply Return_injective in H. rewrite <- H.
    exists "change the ", (" property to be " ++ arg). reflexivity. }
  intros H. apply Return_injective in H. rewrite <- H.
  exists EmptyString, (" " ++ message error ++ ". Fix that"). reflexivity.
Qed.

Lemma eqb_outside (n a : string) (l : list string) :
  ~ In n (a :: l) -> String.eqb n a = false /\ ~ In n l.
Proof.
  intros H. split.
  - apply String.eqb_neq. intros E. apply H. left. symmetry. exact E.
  - intros Hin. apply H. right. exact Hin.
Qed.

(** Two templates do not print the argument, but are reached only when the
    descriptor has one: the line for [uniqueItems], and the line for every
    kind the [switch] has no case for, which quotes the property and
    repeats the message of the validator. *)
Lemma getErrorFix_lines_without_argument (error : ValidationError N) :
  argument error <> VUndefined ->
  (name error = "uniqueItems" ->
   getErrorFix error
   = Return ("remove all duplicate items from " ++ dq ++ property error ++ dq))
  /\ (~ In (name error) switchCases ->
      getErrorFix error
      = Return (dq ++ property error ++ dq ++ " " ++ message error ++ ". Fix that")).
Proof.
  intros Ha. destruct (argumentString_returns _ Ha) as [arg Ea]. split.
  - intros Hn. unfold getErrorFix. rewrite Ea, Hn. reflexivity.
  - intros Hout. unfold getErrorFix. rewrite Ea. cbn [bind].
    unfold switchCases in Hout.
    repeat (apply eqb_outside in Hout;
            let E := fresh "E" in destruct Hout as [E Hout]; rewrite E).
    reflexivity.
Qed.

(** ** The constructor *)

(** A validator built without a missing-JSON text answers a response
    without object with the default text; built with one, with that text,
    even an empty one. The name given to the constructor is not kept. *)
Lemma new_JSONResponseValidator_missing_json_feedback
    (sch : option Schema) (missing header instance : option string)
    memory functions tokenizer response remaining_attempts :
  parseAllObjects (textOf (response_message response)) = [] ->
  hasNullContent (response_message response) = false ->
  validateResponse (new_JSONResponseValidator sch missing header instance)
    memory functions tokenizer response remaining_attempts
  = Return (Promise_resolve (Invalid
      match missing with
      | Some text => text
      | None => "No valid JSON objects were found in the response. Return a valid JSON object."
      end))
  /\ instanceName (new_JSONResponseValidator sch missing header instance) = None.
Proof.
  intros Hp Hn. split; [|reflexivity].
  unfold validateResponse, validateResponse_calls. rewrite Hp, Hn. reflexivity.
Qed.

End Properties.

(** * The validator at work *)

Import Sample.

(** The second of three objects is returned, cleaned; the validator saw the
    third and the second, not the first. *)
Lemma validateResponse_returns_last_valid_candidate_witness :
  call (Some ageSchema) (stringResponse threeAges)
  = Return (Promise_resolve (Valid (VObj [("age", num 2)])))
  /\ calls (Some ageSchema) (stringResponse threeAges)
     = [VObj [("age", VStr "x")]; VObj [("age", num 2)]].
Proof.
  apply (@validateResponse_returns_last_valid_candidate numbers collaborators
           (validator (Some ageSchema)) tt tt tt (stringResponse threeAges) 0%Z
           ageSchema
           [VObj [("age", num 1)]]
           (VObj [("age", num 2); ("notes", VObj [])])
           [VObj [("age", VStr "x")]]).
  - reflexivity.
  - vm_compute. reflexivity.
  - vm_compute. reflexivity.
  - repeat constructor.
Defined.

(** Two objects with the property [a], equal to 1 and then to 2: without a
    schema the second one is the valid value. *)
Lemma validateResponse_without_schema_returns_last_witness :
  @validateResponse_calls numbers collaborators (validator None) tt tt tt
    (stringResponse twoObjects) 0%Z
  = (Return (Promise_resolve (Valid (VObj [("a", num 2)]))), []).
Proof.
  apply (@validateResponse_without_schema_returns_last numbers collaborators
           (validator None) tt tt tt (stringResponse twoObjects) 0%Z
           [VObj [("a", num 1)]] (VObj [("a", num 2)])).
  - reflexivity.
  - vm_compute. reflexivity.
Defined.

(** A message with [null] content is valid with the value [null]; the text
    [no json here] is invalid with the default feedback. *)
Lemma validateResponse_without_objects_witness :
  call None (messageResponse ContentNull) = Return (Promise_resolve (Valid VNull))
  /\ call None (stringResponse "no json here")
     = Return (Promise_resolve (Invalid
         "No valid JSON objects were found in the response. Return a valid JSON object.")).
Proof.
  split.
  - apply (proj1 (@validateResponse_without_objects numbers collaborators
                    (validator None) tt tt tt (messageResponse ContentNull) 0%Z
                    eq_refl) "assistant").
    reflexivity.
  - apply (proj2 (@validateResponse_without_objects numbers collaborators
                    (validator None) tt tt tt (stringResponse "no json here") 0%Z
                    eq_refl)).
    intros r H. discriminate H.
Defined.

(** A message without content is invalid with the missing-JSON feedback. *)
Lemma validateResponse_undefined_content_is_missing_json_witness :
  call (Some ageSchema) (messageResponse ContentUndefined)
  = Return (Promise_resolve (Invalid
      "No valid JSON objects were found in the response. Return a valid JSON object.")).
Proof.
  apply (proj1 (proj2 (@validateResponse_undefined_content_is_missing_json
                         numbers collaborators (validator (Some ageSchema))
                         tt tt tt "success" "assistant" 0%Z))).
  reflexivity.
Defined.

(** A [type] error whose argument is the array of the allowed types. *)
Lemma getErrorFix_argument_stringification_witness :
  getErrorFix typeError
  = Return ("convert " ++ dq ++ "instance.age" ++ dq ++ " to a number,null").
Proof.
  apply (proj1 (proj2 (proj2 (proj2 (proj2 (proj2 (proj2
           (@getErrorFix_argument_stringification numbers)))))) typeError
           "number,null" eq_refl)).
  reflexivity.
Defined.

Lemma getErrorFix_raises_without_argument_witness :
  getErrorFix duplicateItemsError = Throw (TypeError "toString").
Proof.
  apply (@getErrorFix_raises_without_argument numbers duplicateItemsError).
  reflexivity.
Defined.

Lemma getErrorFix_enum_witness :
  getErrorFix colourEnumError
  = Return ("change the " ++ dq ++ "instance.colour" ++ dq ++
            " property to be one of these values: red,green").
Proof.
  apply (@getErrorFix_enum numbers colourEnumError "red,green").
  - reflexivity.
  - reflexivity.
Defined.

Lemma getErrorFix_enum_single_colon_witness :
  exists rest,
    afterFirst ":" (message colourEnumError) = Some rest
    /\ getErrorFix colourEnumError
       = Return ("change the " ++ dq ++ property colourEnumError ++ dq ++
                 " property to be one of these values: " ++ trim rest).
Proof.
  apply (@getErrorFix_enum_single_colon numbers colourEnumError "red,green").
  - reflexivity.
  - reflexivity.
  - reflexivity.
Defined.

(** Two rejected objects: the feedback lists the two errors of the second
    one and none of the first one's. *)
Lemma validateResponse_feedback_from_last_candidate_witness :
  call (Some ageAndTagsSchema) (stringResponse twoRejectedAges)
  = Return (Promise_resolve (Invalid
      ("The JSON returned had errors. Apply these fixes:" ++ LF ++
       join LF ["convert " ++ dq ++ "instance.age" ++ dq ++ " to a number";
                "add the " ++ dq ++ "id" ++ dq ++ " property to " ++
                dq ++ "instance" ++ dq]))).
Proof.
  apply (@validateResponse_feedback_from_last_candidate numbers collaborators
           (validator (Some ageAndTagsSchema)) tt tt tt
           (stringResponse twoRejectedAges) 0%Z ageAndTagsSchema
           [VObj [("age", VBool true); ("tags", num 7)]]
           (VObj [("age", VStr "x")])).
  - reflexivity.
  - vm_compute. reflexivity.
  - repeat constructor.
  - vm_compute. reflexivity.
Defined.

Lemma validateResponse_scans_every_rejected_candidate_witness :
  calls (Some ageAndTagsSchema) (stringResponse twoRejectedAges)
  = [VObj [("age", VStr "x")]; VObj [("age", VBool true); ("tags", num 7)]].
Proof.
  apply (@validateResponse_scans_every_rejected_candidate numbers collaborators
           (validator (Some ageAndTagsSchema)) tt tt tt
           (stringResponse twoRejectedAges) 0%Z ageAndTagsSchema
           [VObj [("age", VBool true); ("tags", num 7)]]
           (VObj [("age", VStr "x")])).
  - reflexivity.
  - vm_compute. reflexivity.
  - repeat constructor.
Defined.

(** An [age] of the wrong type and a duplicate among the [tags]: the first
    error can be translated, the second one cannot. *)
Lemma validateResponse_raises_when_argument_missing_witness :
  call (Some ageAndUniqueTagsSchema) (stringResponse oldAndDuplicateTags)
  = Throw (TypeError "toString").
Proof.
  apply (@validateResponse_raises_when_argument_missing numbers collaborators
           (validator (Some ageAndUniqueTagsSchema)) tt tt tt
           (stringResponse oldAndDuplicateTags) 0%Z ageAndUniqueTagsSchema
           []
           (VObj [("age", VStr "old"); ("tags", VArr [VStr "a"; VStr "a"])])
           [{| property := "instance.age";
               message := "is not of a type(s) number";
               name := "type";
               argument := VArr [VStr "number"] |}]
           duplicateItemsError
           []
           ["convert " ++ dq ++ "instance.age" ++ dq ++ " to a number"]).
  - reflexivity.
  - vm_compute. reflexivity.
  - repeat constructor.
  - vm_compute. reflexivity.
  - vm_compute. reflexivity.
  - reflexivity.
Defined.

(** C4. One object, which the schema rejects for a duplicate among its
    [tags]: every candidate is rejected, and no invalid result with the
    header and a line for the error is returned; the call raises while it
    builds the feedback from the errors of that object. *)
Theorem validateResponse_raises_instead_of_feedback :
  candidates (stringResponse numberedDuplicateTags)
  = [VObj [("id", num 7); ("tags", VArr [VStr "b"; VStr "b"])]]
  /\ Forall (@rejected numbers collaborators tagsSchema)
       (candidates (stringResponse numberedDuplicateTags))
  /\ result_errors
       (validate_sample
          (clean (VObj [("id", num 7); ("tags", VArr [VStr "b"; VStr "b"])]))
          tagsSchema)
     = [duplicateItemsError]
  /\ call (Some tagsSchema) (stringResponse numberedDuplicateTags)
     = Throw (TypeError "toString").
Proof.
  repeat split.
  vm_compute. repeat constructor.
Qed.

(** C5. One object with a duplicate item under a [uniqueItems] schema: the
    descriptor has no argument, [getErrorFix] raises on it, and so does
    [validateResponse]. *)
Theorem validateResponse_raises_on_duplicate_items :
  result_errors
    (validate_sample (VObj [("tags", VArr [VStr "a"; VStr "a"])]) tagsSchema)
  = [duplicateItemsError]
  /\ getErrorFix duplicateItemsError = Throw (TypeError "toString")
  /\ call (Some tagsSchema) (stringResponse duplicateTags)
     = Throw (TypeError "toString").
Proof.
  repeat split.
Qed.

(** C6. An [enum] error over the times [10:30] and [11:45]: the text of the
    message after its first colon, trimmed, is [10:30,11:45], and the line
    built by [getErrorFix] ends with [10]. *)
Theorem getErrorFix_enum_cut_at_second_colon :
  result_errors (validate_sample (VObj [("when", VStr "9:00")]) whenSchema)
  = [timeEnumError]
  /\ option_map trim (afterFirst ":" (message timeEnumError)) = Some "10:30,11:45"
  /\ getErrorFix timeEnumError
     = Return ("change the " ++ dq ++ "instance.when" ++ dq ++
               " property to be one of these values: 10")
  /\ call (Some whenSchema) (stringResponse earlyTime)
     = Return (Promise_resolve (Invalid
         ("The JSON returned had errors. Apply these fixes:" ++ LF ++
          "change the " ++ dq ++ "instance.when" ++ dq ++
          " property to be one of these values: 10"))).
Proof.
  repeat split.
Qed.

(** The scenario of the specification with an [age] that is not a
    number. *)
Example validateResponse_age_scenario :
  call (Some ageSchema)
    (stringResponse ("Here you go: " ++
                     object [member "name" (quoted "Al"); member "age" (quoted "x")]))
  = Return (Promise_resolve (Invalid
      ("The JSON returned had errors. Apply these fixes:" ++ LF ++
       "convert " ++ dq ++ "instance.age" ++ dq ++ " to a number"))).
Proof.
  reflexivity.
Qed.

(** The value returned for the three objects is the second one, cleaned,
    and the schema accepts it. *)
Lemma validateResponse_valid_value_is_accepted_witness :
  exists c,
    In c (candidates (stringResponse threeAges))
    /\ value (Valid (VObj [("age", num 2)])) = Some (clean c)
    /\ accepts ageSchema (clean c) = true.
Proof.
  apply (@validateResponse_valid_value_is_accepted numbers collaborators
           (validator (Some ageSchema)) tt tt tt (stringResponse threeAges) 0%Z
           ageSchema (Valid (VObj [("age", num 2)]))).
  - reflexivity.
  - vm_compute. discriminate.
  - vm_compute. reflexivity.
  - reflexivity.
Defined.

(** The first of the three objects is accepted, so the call is valid. *)
Lemma validateResponse_valid_when_some_candidate_accepted_witness :
  exists c',
    In c' (candidates (stringResponse threeAges))
    /\ accepts ageSchema (clean c') = true
    /\ call (Some ageSchema) (stringResponse threeAges)
       = Return (Promise_resolve (Valid (clean c'))).
Proof.
  apply (@validateResponse_valid_when_some_candidate_accepted numbers collaborators
           (validator (Some ageSchema)) tt tt tt (stringResponse threeAges) 0%Z
           ageSchema (VObj [("age", num 1)])).
  - reflexivity.
  - vm_compute. left. reflexivity.
  - vm_compute. reflexivity.
Defined.

Lemma validateResponse_raises_iff_witness :
  call (Some tagsSchema) (stringResponse duplicateTags)
  = Throw (TypeError "toString").
Proof.
  apply (proj2 (@validateResponse_raises_iff numbers collaborators
                  (validator (Some tagsSchema)) tt tt tt
                  (stringResponse duplicateTags) 0%Z (TypeError "toString"))).
  exists tagsSchema, [], (VObj [("tags", VArr [VStr "a"; VStr "a"])]).
  repeat split.
  vm_compute. repeat constructor.
Defined.

Lemma validateResponse_result_shape_witness :
  (exists v, Invalid "No valid JSON objects were found in the response. Return a valid JSON object."
             = @Valid numbers v)
  \/ (Invalid "No valid JSON objects were found in the response. Return a valid JSON object."
      = @Invalid numbers (missingJsonFeedback (validator None))
      /\ parseAllObjects_spec "no json here" = [])
  \/ (exists lines,
        Invalid "No valid JSON objects were found in the response. Return a valid JSON object."
        = @Invalid numbers (errorFeedback (validator None) ++ LF ++ join LF lines)
        /\ parseAllObjects_spec "no json here" <> []
        /\ schema (validator None) <> None).
Proof.
  apply (@validateResponse_result_shape numbers collaborators
           (validator None) tt tt tt (stringResponse "no json here") 0%Z).
  reflexivity.
Defined.

Lemma getErrorFix_returns_iff_witness :
  exists line, getErrorFix colourEnumError = Return line.
Proof.
  apply (proj2 (@getErrorFix_returns_iff numbers colourEnumError)).
  split.
  - discriminate.
  - intros _. discriminate.
Defined.

Lemma getErrorFix_line_quotes_property_witness :
  exists before after,
    "convert " ++ dq ++ "instance.age" ++ dq ++ " to a number,null"
    = before ++ dq ++ property typeError ++ dq ++ after.
Proof.
  apply (@getErrorFix_line_quotes_property numbers typeError).
  reflexivity.
Defined.

(** A kind without a case of its own: the message of the validator is
    repeated after the quoted property. *)
Lemma getErrorFix_lines_without_argument_witness :
  getErrorFix minimumError
  = Return (dq ++ "instance.age" ++ dq ++
            " must be greater than or equal to 18. Fix that").
Proof.
  apply (proj2 (@getErrorFix_lines_without_argument numbers minimumError
                  ltac:(discriminate))).
  vm_compute. intuition discriminate.
Defined.

(** A custom text for the missing-JSON case. *)
Lemma new_JSONResponseValidator_missing_json_feedback_witness :
  @validateResponse numbers collaborators
    (@new_JSONResponseValidator numbers collaborators (Some ageSchema)
       (Some "Send one JSON object.") None (Some "ages"))
    tt tt tt (stringResponse "no json here") 0%Z
  = Return (Promise_resolve (Invalid "Send one JSON object."))
  /\ instanceName
       (@new_JSONResponseValidator numbers collaborators (Some ageSchema)
          (Some "Send one JSON object.") None (Some "ages"))
     = None.
Proof.
  apply (@new_JSONResponseValidator_missing_json_feedback numbers collaborators
           (Some ageSchema) (Some "Send one JSON object.") None (Some "ages")
           tt tt tt (stringResponse "no json here") 0%Z).
  - reflexivity.
  - reflexivity.
Defined.

Lemma validateResponse_feedback_line_per_error_witness :
  exists lines,
    Forall2 (fun error line => getErrorFix error = Return line)
      (result_errors (@validate numbers collaborators
                        (clean (VObj [("age", VStr "x")])) ageAndTagsSchema))
      lines
    /\ call (Some ageAndTagsSchema) (stringResponse twoRejectedAges)
       = Return (Promise_resolve
                   (Invalid ("The JSON returned had errors. Apply these fixes:"
                             ++ LF ++ join LF lines))).
Proof.
  apply (@validateResponse_feedback_line_per_error numbers collaborators
           (validator (Some ageAndTagsSchema)) tt tt tt
           (stringResponse twoRejectedAges) 0%Z ageAndTagsSchema
           [VObj [("age", VBool true); ("tags", num 7)]]
           (VObj [("age", VStr "x")])).
  - reflexivity.
  - vm_compute. reflexivity.
  - repeat constructor.
  - vm_compute. intros error [<-|[<-|[]]]; split; discriminate.
Defined.

(** C7. The descriptor of a duplicate item has no argument: its argument
    is [undefined], whose string form is the text undefined, and lines
    93-101 raise on it instead of turning it into a string, so no template
    is reached. *)
Theorem argumentString_raises_on_missing_argument :
  result_errors
    (validate_sample (VObj [("tags", VArr [VStr "a"; VStr "a"])]) tagsSchema)
  = [duplicateItemsError]
  /\ argument duplicateItemsError = VUndefined
  /\ ToString (argument duplicateItemsError) = "undefined"
  /\ argumentString (argument duplicateItemsError) = Throw (TypeError "toString").
Proof.
  repeat split.
Qed.
